(** * HyperProc: a chainable asynchronous pipeline over an explicit state object

    A shallow embedding of [HyperProc], [HyperSubProc] and [HyperProcError]
    and the verification of their error-handling protocol.

    Modelling conventions.
    - JavaScript objects live in a heap addressed by locations, so that
      aliasing and writes in place are visible.  A value of object type is a
      reference [VObject c l]: the location [l] of the object's own data
      properties in the heap, together with the class [c] of the object,
      that is, whether it is an array and what its direct prototype is.
      Both are fixed when the object is created: [Object.setPrototypeOf] is
      not modelled, nor are proxies, accessors and frozen objects.
    - Error instances are immutable values ([VError], [VHyperProcError]);
      their stack text is not represented.
    - Numbers are the integers.
    - A user callback is a function from its argument list and the store to
      a completion (returned or thrown value) and a new store; it may change
      the properties of any object.  [await] of
      a call is its completion: a fulfilled promise is a returned value, a
      rejected promise or a synchronous throw is a thrown value.  Callbacks
      that never settle are outside the model.
    - Every call the interpreter makes is recorded in a trace, one event per
      call, with the trace of a nested [run] kept as a sub-trace. *)

From stdpp Require Import gmap strings list pretty.

Local Open Scope string_scope.
Local Open Scope list_scope.
Local Set Warnings "-register-all".

(** ** Values and the store *)

Definition loc := positive.

(** The direct prototype of an object: [Object.prototype], [null], or the
    prototype object of some other constructor. *)
Inductive proto :=
  | ObjectPrototype
  | NullPrototype
  | ClassPrototype (ctor : string).

Definition proto_eqb (p q : proto) : bool :=
  match p, q with
  | ObjectPrototype, ObjectPrototype => true
  | NullPrototype, NullPrototype => true
  | ClassPrototype c, ClassPrototype d => String.eqb c d
  | _, _ => false
  end.

(** Fields of a [HyperProcError] instance, over the type of values.
    [err_state] is the non-enumerable [state] property and [err_cause] the
    native [cause] property; [None] means that the property is absent. *)
Record hyperProcError (V : Type) := mkHyperProcError {
  err_name : string;
  err_message : string;
  err_op : string;
  err_id : V;
  err_state : option V;
  err_cause : option V
}.
Arguments mkHyperProcError {V}.
Arguments err_name {V}.
Arguments err_message {V}.
Arguments err_op {V}.
Arguments err_id {V}.
Arguments err_state {V}.
Arguments err_cause {V}.

(** The class of an object. *)
Record class := mkClass {
  is_array : bool;
  prototype : proto
}.

(** The class of an object literal [{ ... }]. *)
Definition plain : class := {| is_array := false; prototype := ObjectPrototype |}.

(** The class of an array literal [[ ... ]]. *)
Definition array : class := {| is_array := true; prototype := ClassPrototype "Array" |}.

Inductive value :=
  | VUndefined
  | VNull
  | VBool (b : bool)
  | VNum (n : Z)
  | VStr (s : string)
  | VSymbol (description : string)
  | VFunction (name src : string)
  | VObject (c : class) (l : loc)
  | VError (name message : string)          (* new Error(m), new TypeError(m), ... *)
  | VHyperProcError (e : hyperProcError value).

Definition TypeError (message : string) : value := VError "TypeError" message.
Definition Error (message : string) : value := VError "Error" message.

(** The heap holds the own properties of each object. *)
Record store := mkStore {
  heap : gmap loc (gmap string value);
  console : list value
}.

(** The own properties of the object at [l].  Every reference a program
    holds is live; to keep the accessors total, a location outside the
    heap reads as an object without properties. *)
Definition props (σ : store) (l : loc) : gmap string value :=
  default ∅ (heap σ !! l).

(** The result of evaluating (and awaiting) an expression. *)
Inductive completion (A : Type) :=
  | Normal (a : A)
  | Abrupt (thrown : value).
Arguments Normal {A}.
Arguments Abrupt {A}.

(** A user-supplied function, applied to its arguments in a store. *)
Definition jsfun := list value → store → completion value * store.

Definition arg (n : nat) (args : list value) : value :=
  default VUndefined (args !! n).

(** ** Language primitives used by the code *)

Definition is_undefined (v : value) : bool :=
  match v with VUndefined => true | _ => false end.

Definition is_null (v : value) : bool :=
  match v with VNull => true | _ => false end.

(** [a ?? b] *)
Definition nullish_or (a b : value) : value :=
  if is_undefined a || is_null a then b else a.

Definition typeof (v : value) : string :=
  match v with
  | VUndefined => "undefined"
  | VNull => "object"
  | VBool _ => "boolean"
  | VNum _ => "number"
  | VStr _ => "string"
  | VSymbol _ => "symbol"
  | VFunction _ _ => "function"
  | VObject _ _ | VError _ _ | VHyperProcError _ => "object"
  end.

Definition Array_isArray (v : value) : bool :=
  match v with
  | VObject c _ => is_array c
  | _ => false
  end.

(** [Object.getPrototypeOf] throws on [undefined] and [null]. *)
Definition Object_getPrototypeOf (v : value) : completion proto :=
  match v with
  | VUndefined | VNull =>
      Abrupt (TypeError "Cannot convert undefined or null to object")
  | VBool _ => Normal (ClassPrototype "Boolean")
  | VNum _ => Normal (ClassPrototype "Number")
  | VStr _ => Normal (ClassPrototype "String")
  | VSymbol _ => Normal (ClassPrototype "Symbol")
  | VFunction _ _ => Normal (ClassPrototype "Function")
  | VObject c _ => Normal (prototype c)
  | VError name _ => Normal (ClassPrototype name)
  | VHyperProcError _ => Normal (ClassPrototype "HyperProcError")
  end.

(** [Object.prototype.hasOwnProperty.call(v, key)] for the values a state
    variable can hold. *)
Definition hasOwnProperty (σ : store) (v : value) (key : string) : bool :=
  match v with
  | VObject _ l => bool_decide (is_Some (props σ l !! key))
  | _ => false
  end.

(** [v[key]], reading own data properties. *)
Definition get (σ : store) (v : value) (key : string) : value :=
  match v with
  | VObject _ l => default VUndefined (props σ l !! key)
  | VError name message =>
      if String.eqb key "name" then VStr name
      else if String.eqb key "message" then VStr message
      else VUndefined
  | VHyperProcError e =>
      if String.eqb key "name" then VStr (err_name e)
      else if String.eqb key "message" then VStr (err_message e)
      else if String.eqb key "op" then VStr (err_op e)
      else if String.eqb key "id" then err_id e
      else if String.eqb key "state" then default VUndefined (err_state e)
      else if String.eqb key "cause" then default VUndefined (err_cause e)
      else VUndefined
  | VFunction name _ => if String.eqb key "name" then VStr name else VUndefined
  | _ => VUndefined
  end.

(** [v[key] = x], writing an own data property of an object in place. *)
Definition set (σ : store) (v : value) (key : string) (x : value) : store :=
  match v with
  | VObject _ l =>
      {| heap := <[l := <[key := x]> (props σ l)]> (heap σ);
         console := console σ |}
  | _ => σ
  end.

(** The object literal [{ ...ps }]: a new plain object, at a location not
    yet in the heap. *)
Definition alloc (σ : store) (ps : gmap string value) : value * store :=
  let l := fresh (dom (heap σ)) in
  (VObject plain l, {| heap := <[l := ps]> (heap σ); console := console σ |}).

Definition truthy (v : value) : bool :=
  match v with
  | VUndefined | VNull => false
  | VBool b => b
  | VNum n => negb (n =? 0)%Z
  | VStr s => negb (String.eqb s EmptyString)
  | _ => true
  end.

(** [Error.prototype.toString] *)
Definition error_string (name message : string) : string :=
  if String.eqb message EmptyString then name
  else if String.eqb name EmptyString then message
  else name +:+ ": " +:+ message.

(** [String(v)].  Objects print through the default [toString]. *)
Definition String_ (v : value) : string :=
  match v with
  | VUndefined => "undefined"
  | VNull => "null"
  | VBool true => "true"
  | VBool false => "false"
  | VNum n => pretty n
  | VStr s => s
  | VSymbol d => "Symbol(" +:+ d +:+ ")"
  | VFunction _ src => src
  | VObject _ _ => "[object Object]"
  | VError name message => error_string name message
  | VHyperProcError e => error_string (err_name e) (err_message e)
  end.

Definition console_error (v : value) (σ : store) : store :=
  {| heap := heap σ; console := console σ ++ [v] |}.

Definition console_log (v : value) (σ : store) : store :=
  {| heap := heap σ; console := console σ ++ [v] |}.

(** The value of an object literal whose fields are values or nested
    literals, as [toJSON] returns it. *)
Inductive literal :=
  | LValue (v : value)
  | LObject (fields : list (string * literal)).

(** ** HyperProcError *)

Module HyperProcError.

(** The options object [{ op, id, state, cause }]; an omitted option is
    [VUndefined]. *)
Record opts := mkOpts {
  op : value;
  id : value;
  state : value;
  cause : value
}.

Definition no_opts : opts :=
  {| op := VUndefined; id := VUndefined; state := VUndefined; cause := VUndefined |}.

(** [new HyperProcError(message, { op, id, state, cause })] *)
Definition new (message : string) (o : opts) : hyperProcError value :=
  {| err_name := "HyperProcError";
     err_message := message;
     err_op := String_ (nullish_or (op o) (VStr "UNDEFINED"));
     err_id := id o;
     err_state := if is_undefined (state o) then None else Some (state o);
     err_cause := if truthy (cause o) then Some (cause o) else None |}.

Definition init (message : string) (o : opts) : hyperProcError value :=
  new message o.

(** [err?.message ?? String(err)], converted to a string as the [Error]
    constructor does. *)
Definition message_of (σ : store) (err : value) : string :=
  String_ (nullish_or
             (if is_undefined err || is_null err then VUndefined
              else get σ err "message")
             (VStr (String_ err))).

(** [HyperProcError.from(err, { op, id, state })] *)
Definition from (σ : store) (err : value) (o : opts) : hyperProcError value :=
  new (message_of σ err)
      {| op := op o; id := id o; state := state o; cause := err |}.

(** [this.toJSON()] *)
Definition toJSON (σ : store) (this : hyperProcError value) : literal :=
  LObject
    [ ("name", LValue (VStr (err_name this)));
      ("message", LValue (VStr (err_message this)));
      ("op", LValue (VStr (err_op this)));
      ("id", LValue (err_id this));
      ("cause",
        match err_cause this with
        | Some c =>
            if truthy c
            then LObject [ ("name", LValue (get σ c "name"));
                           ("message", LValue (get σ c "message")) ]
            else LValue VUndefined
        | None => LValue VUndefined
        end) ].

End HyperProcError.

Definition instanceof_HyperProcError (v : value) : bool :=
  match v with VHyperProcError _ => true | _ => false end.

(** ** HyperProc *)

Module HyperProc.

(** The operation tags.  The five static symbols are distinct from each
    other and from every other value; [OtherTag v] is any other value
    found in the [op] field of a record pushed by hand. *)
Inductive tag :=
  | APPLY_TO
  | TRANSFORM
  | AUGMENT
  | CHAIN
  | NOOP
  | OtherTag (v : value).

Definition tag_value (t : tag) : value :=
  match t with
  | APPLY_TO => VSymbol "APPLY_TO"
  | TRANSFORM => VSymbol "TRANSFORM"
  | AUGMENT => VSymbol "AUGMENT"
  | CHAIN => VSymbol "CHAIN"
  | NOOP => VSymbol "NOOP"
  | OtherTag v => v
  end.

(** What the interpreter calls, in order. *)
Inductive event :=
  | EvCall (id : option string) (op : tag) (args : list value)
      (* fn(...args) for the record { id, fn, op } *)
  | EvRun (state : value) (nested : list event)
      (* fn.run(state), with the calls made by the nested run *)
  | EvOnError (args : list value).
      (* this._onError(...args) *)

(** The [run] method of an instance, bound to it. *)
Definition runfn := value → store → completion value * store * list event.

(** The [fn] field of a record: a function, or (for [chain]) an instance
    of HyperProc.  The interpreter uses a queued instance only through
    [fn.run], so it is represented by that method. *)
Inductive callee :=
  | Fn (f : jsfun)
  | Instance (run : runfn).

Record oprec := mkOp {
  id : option string;
  fn : callee;
  op : tag
}.

Record hyperProc := mkHyperProc {
  _env : value;
  _ops : list oprec;
  _onError : jsfun
}.

(** [(err, state, env) => { console.error(err); return state; }] *)
Definition default_onError : jsfun :=
  fun args σ => (Normal (arg 1 args), console_error (arg 0 args) σ).

(** [new HyperProc(env)].  The default argument [{}] is a fresh empty
    object allocated by the caller. *)
Definition new (env : value) : hyperProc :=
  {| _env := env; _ops := []; _onError := default_onError |}.

Definition init (env : value) : hyperProc := new env.

Definition push (this : hyperProc) (r : oprec) : hyperProc :=
  {| _env := _env this; _ops := _ops this ++ [r]; _onError := _onError this |}.

Definition applyTo (this : hyperProc) (f : jsfun) : hyperProc :=
  push this {| id := None; fn := Fn f; op := APPLY_TO |}.

Definition transform (this : hyperProc) (i : string) (f : jsfun) : hyperProc :=
  push this {| id := Some i; fn := Fn f; op := TRANSFORM |}.

Definition augment (this : hyperProc) (i : string) (f : jsfun) : hyperProc :=
  push this {| id := Some i; fn := Fn f; op := AUGMENT |}.

Definition noop (this : hyperProc) (f : jsfun) : hyperProc :=
  push this {| id := None; fn := Fn f; op := NOOP |}.

(** [log(arg)]: [arg] is a function of [(state, env)] or a message. *)
Definition log (this : hyperProc) (a : jsfun + value) : hyperProc :=
  let f : jsfun :=
    match a with
    | inl g => fun args σ =>
        match g [arg 0 args; arg 1 args] σ with
        | (Normal v, σ1) => (Normal VUndefined, console_log v σ1)
        | (Abrupt e, σ1) => (Abrupt e, σ1)
        end
    | inr v => fun _ σ => (Normal VUndefined, console_log v σ)
    end in
  push this {| id := None; fn := Fn f; op := NOOP |}.

Definition onError (this : hyperProc) (f : jsfun) : hyperProc :=
  {| _env := _env this; _ops := _ops this; _onError := f |}.

(** The argument of [chain]: an instance of HyperProc (or of a subclass),
    given by its [run] method, or any other value. *)
Inductive chain_arg :=
  | IsInstance (run : runfn)
  | NotInstance (v : value).

Definition chain (this : hyperProc) (hp : chain_arg) : completion hyperProc :=
  match hp with
  | NotInstance _ => Abrupt (TypeError "Can only chain to an instance of HyperProc")
  | IsInstance r => Normal (push this {| id := None; fn := Instance r; op := CHAIN |})
  end.

(** [HyperProc.isState(value)] *)
Definition isState (v : value) : completion bool :=
  if negb (is_null v) && String.eqb (typeof v) "object" && negb (Array_isArray v)
  then
    match Object_getPrototypeOf v with
    | Abrupt e => Abrupt e
    | Normal proto =>
        Normal (proto_eqb proto ObjectPrototype || proto_eqb proto NullPrototype)
    end
  else Normal false.

(** [if (!this.constructor.isState(v)) throw new TypeError(message)] *)
Definition check_state (v : value) (message : string) : completion unit :=
  match isState v with
  | Abrupt e => Abrupt e
  | Normal b => if negb b then Abrupt (TypeError message) else Normal tt
  end.

Definition id_value (i : option string) : value :=
  match i with Some s => VStr s | None => VUndefined end.

(** The property key denoted by [id], also its text in a template. *)
Definition key (i : option string) : string := String_ (id_value i).

Definition dquote : string := String (Ascii.ascii_of_nat 34) EmptyString.

(** [await fn(...args)] for the record [r]. *)
Definition invoke (r : oprec) (args : list value) (σ : store)
  : completion value * store * list event :=
  match fn r with
  | Fn f => let '(c, σ1) := f args σ in (c, σ1, [EvCall (id r) (op r) args])
  | Instance _ => (Abrupt (TypeError "fn is not a function"), σ, [])
  end.

(** [await fn.run(state)] for the record [r]. *)
Definition invoke_run (r : oprec) (state : value) (σ : store)
  : completion value * store * list event :=
  match fn r with
  | Instance run => let '(c, σ1, nested) := run state σ in (c, σ1, [EvRun state nested])
  | Fn _ => (Abrupt (TypeError "fn.run is not a function"), σ, [])
  end.

(** One pass through the body of the [for] loop: the [switch] on [op]. *)
Inductive step_result :=
  | Continue (state : value) (σ : store) (tr : list event)
  | Raise (err : value) (σ : store) (tr : list event).

Definition step (env : value) (r : oprec) (state : value) (σ : store) : step_result :=
  match op r with
  | APPLY_TO =>
      match invoke r [state; env] σ with
      | (Abrupt e, σ1, tr) => Raise e σ1 tr
      | (Normal nextState, σ1, tr) =>
          match check_state nextState "HyperProc.applyTo must return an OBJECT as state" with
          | Abrupt e => Raise e σ1 tr
          | Normal _ => Continue nextState σ1 tr
          end
      end
  | TRANSFORM =>
      if negb (hasOwnProperty σ state (key (id r)))
      then Raise (VHyperProcError
                    (HyperProcError.new
                       ("HyperProc.transform missing property " +:+ dquote +:+ key (id r) +:+ dquote)
                       {| HyperProcError.id := id_value (id r);
                          HyperProcError.op := tag_value (op r);
                          HyperProcError.state := VUndefined;
                          HyperProcError.cause := VUndefined |})) σ []
      else
        match invoke r [get σ state (key (id r)); state; env] σ with
        | (Abrupt e, σ1, tr) => Raise e σ1 tr
        | (Normal v, σ1, tr) => Continue state (set σ1 state (key (id r)) v) tr
        end
  | AUGMENT =>
      if hasOwnProperty σ state (key (id r))
      then Raise (VHyperProcError
                    (HyperProcError.new
                       ("HyperProc.augment property " +:+ dquote +:+ key (id r) +:+ dquote
                          +:+ " already exists")
                       {| HyperProcError.id := id_value (id r);
                          HyperProcError.op := tag_value (op r);
                          HyperProcError.state := VUndefined;
                          HyperProcError.cause := VUndefined |})) σ []
      else
        match invoke r [state; env] σ with
        | (Abrupt e, σ1, tr) => Raise e σ1 tr
        | (Normal v, σ1, tr) => Continue state (set σ1 state (key (id r)) v) tr
        end
  | CHAIN =>
      match invoke_run r state σ with
      | (Abrupt e, σ1, tr) => Raise e σ1 tr
      | (Normal nextState, σ1, tr) =>
          match check_state nextState "HyperProc.chain must return an OBJECT as state" with
          | Abrupt e => Raise e σ1 tr
          | Normal _ => Continue nextState σ1 tr
          end
      end
  | NOOP =>
      match invoke r [state; env] σ with
      | (Abrupt e, σ1, tr) => Raise e σ1 tr
      | (Normal _, σ1, tr) => Continue state σ1 tr
      end
  | OtherTag _ =>
      Raise (VHyperProcError
               (HyperProcError.new
                  ("Unknown Operation: " +:+ String_ (tag_value (op r)))
                  {| HyperProcError.state := state;
                     HyperProcError.id := id_value (id r);
                     HyperProcError.op := tag_value (op r);
                     HyperProcError.cause := VUndefined |})) σ []
  end.

(** The [for] loop inside [try].  [tr] is the trace so far.  The loop
    either runs off the end of the queue or leaves through the first
    raised error, with [spec = { id, op }] of the record in flight and
    the value of the [state] variable at that point. *)
Inductive loop_result :=
  | Completed (state : value) (σ : store) (tr : list event)
  | Raised (err : value) (spec_id : option string) (spec_op : tag)
           (state : value) (σ : store) (tr : list event).

Fixpoint loop (env : value) (ops : list oprec) (state : value) (σ : store)
         (tr : list event) : loop_result :=
  match ops with
  | [] => Completed state σ tr
  | r :: rest =>
      match step env r state σ with
      | Continue state' σ' tr' => loop env rest state' σ' (tr ++ tr')
      | Raise err σ' tr' => Raised err (id r) (op r) state σ' (tr ++ tr')
      end
  end.

(** The [catch] block: normalise the error. *)
Definition normalize (σ : store) (err : value) (spec_id : option string)
           (spec_op : tag) (state : value) : value :=
  if instanceof_HyperProcError err then err
  else VHyperProcError
         (HyperProcError.from σ err
            {| HyperProcError.state := state;
               HyperProcError.id := id_value spec_id;
               HyperProcError.op := tag_value spec_op;
               HyperProcError.cause := VUndefined |}).

(** The [catch] block: call the recovery handler and check its result. *)
Definition recover (this : hyperProc) (hyperProcError state : value) (σ : store)
           (tr : list event) : completion value * store * list event :=
  let args := [hyperProcError; state; _env this] in
  match _onError this args σ with
  | (Abrupt rethrow, σ1) => (Abrupt rethrow, σ1, tr ++ [EvOnError args])
  | (Normal result, σ1) =>
      let state' := if is_undefined result then state else result in
      match check_state state'
              "HyperProc.onError must return UNDEFINED or an OBJECT as state" with
      | Abrupt rethrow => (Abrupt rethrow, σ1, tr ++ [EvOnError args])
      | Normal _ => (Normal state', σ1, tr ++ [EvOnError args])
      end
  end.

(** [await this.run(state)]: [Normal] is a fulfilled promise, [Abrupt] a
    rejected one. *)
Definition run (this : hyperProc) : runfn := fun state σ =>
  match check_state state "HyperProc.run expects an OBJECT as state" with
  | Abrupt e => (Abrupt e, σ, [])
  | Normal _ =>
      match loop (_env this) (_ops this) state σ [] with
      | Completed state' σ' tr => (Normal state', σ', tr)
      | Raised err spec_id spec_op state' σ' tr =>
          recover this (normalize σ' err spec_id spec_op state') state' σ' tr
      end
  end.

End HyperProc.

(** ** HyperSubProc *)

Module HyperSubProc.

(** [(err) => { throw err; }] *)
Definition bubble : jsfun := fun args σ => (Abrupt (arg 0 args), σ).

(** [new HyperSubProc(env)] *)
Definition new (env : value) : HyperProc.hyperProc :=
  HyperProc.onError (HyperProc.new env) bubble.

Definition init (env : value) : HyperProc.hyperProc := new env.

End HyperSubProc.

(** ** Definitions used to state the properties *)


(** The names of the fields of an object literal, in order. *)
Definition field_names (j : literal) : list string :=
  match j with
  | LValue _ => []
  | LObject fields => fst <$> fields
  end.

Definition step_trace (s : HyperProc.step_result) : list HyperProc.event :=
  match s with HyperProc.Continue _ _ tr => tr | HyperProc.Raise _ _ tr => tr end.

Definition loop_trace (s : HyperProc.loop_result) : list HyperProc.event :=
  match s with
  | HyperProc.Completed _ _ tr => tr
  | HyperProc.Raised _ _ _ _ _ tr => tr
  end.

(** The recovery-handler calls a run made itself (those of nested runs
    are inside their [EvRun] event), with their arguments. *)
Definition handler_calls (tr : list HyperProc.event) : list (list value) :=
  omap (λ ev, match ev with HyperProc.EvOnError args => Some args | _ => None end) tr.



(** The messages of the TypeErrors the code throws. *)
Definition run_message : string := "HyperProc.run expects an OBJECT as state".

Definition applyTo_message : string :=
  "HyperProc.applyTo must return an OBJECT as state".

Definition chain_message : string :=
  "HyperProc.chain must return an OBJECT as state".

Definition onError_message : string :=
  "HyperProc.onError must return UNDEFINED or an OBJECT as state".

Definition chain_arg_message : string := "Can only chain to an instance of HyperProc".

(** The pipeline error that wraps the TypeError of a result check. *)
Definition wrapped_TypeError (message : string) (r : HyperProc.oprec) (state : value)
  : value :=
  VHyperProcError
    {| err_name := "HyperProcError";
       err_message := message;
       err_op := String_ (HyperProc.tag_value (HyperProc.op r));
       err_id := HyperProc.id_value (HyperProc.id r);
       err_state := Some state;
       err_cause := Some (TypeError message) |}.


(** The record queued by [chain(child)]. *)
Definition chain_record (child : HyperProc.hyperProc) : HyperProc.oprec :=
  {| HyperProc.id := None;
     HyperProc.fn := HyperProc.Instance (HyperProc.run child);
     HyperProc.op := HyperProc.CHAIN |}.

(** The same engine with another queue. *)
Definition with_ops (this : HyperProc.hyperProc) (ops : list HyperProc.oprec)
  : HyperProc.hyperProc :=
  {| HyperProc._env := HyperProc._env this;
     HyperProc._ops := ops;
     HyperProc._onError := HyperProc._onError this |}.




(** ** Callbacks and pipelines used in examples *)

(** A store holding two objects without properties, at 1 and at 2. *)
Definition two_objects : store :=
  {| heap := {[ 1%positive := ∅; 2%positive := ∅ ]}; console := [] |}.

(** The state [{}] at location 1, the environment [{}] at location 2. *)
Definition state1 : value := VObject plain 1%positive.
Definition env2 : value := VObject plain 2%positive.

(** The array [[]] at location 1. *)
Definition array1 : value := VObject array 1%positive.

(** [new Error("boom")] *)
Definition boom : value := Error "boom".

(** [() => v] *)
Definition returns (v : value) : jsfun := fun _ σ => (Normal v, σ).

(** [() => { throw e; }] *)
Definition throws (e : value) : jsfun := fun _ σ => (Abrupt e, σ).


(** The three records of [swallow_pipeline]. *)
Definition ok_record : HyperProc.oprec :=
  {| HyperProc.id := Some "ok"; HyperProc.fn := HyperProc.Fn (returns (VNum 1));
     HyperProc.op := HyperProc.AUGMENT |}.



(** The calls made by the first two records of [swallow_pipeline env2 boom]
    on [state1]. *)
Definition ok_call : HyperProc.event :=
  HyperProc.EvCall (Some "ok") HyperProc.AUGMENT [state1; env2].

Definition applyTo_call : HyperProc.event :=
  HyperProc.EvCall None HyperProc.APPLY_TO [state1; env2].


(** The record queued by [applyTo(() => 123)]. *)
Definition number_record : HyperProc.oprec :=
  {| HyperProc.id := None; HyperProc.fn := HyperProc.Fn (returns (VNum 123));
     HyperProc.op := HyperProc.APPLY_TO |}.

(** [new HyperProc(env).applyTo(() => 123)] *)
Definition applyTo_number (env : value) : HyperProc.hyperProc :=
  HyperProc.applyTo (HyperProc.new env) (returns (VNum 123)).


(** [(..., s, ...) => ({ ...s, k: x })], where [s] is the argument at
    position [n]. *)
Definition spread (n : nat) (k : string) (x : value) : jsfun :=
  fun args σ =>
    let copy :=
      match arg n args with
      | VObject _ l => props σ l
      | _ => ∅
      end in
    let '(o, σ') := alloc σ (<[k := x]> copy) in
    (Normal o, σ').

(** [(err, s) => ({ ...s, recovered: true })] *)
Definition patch_handler : jsfun := spread 1 "recovered" (VBool true).

(** [(v) => v + 1], for the numbers of the model; it is applied to
    nothing else here. *)
Definition add1 : jsfun :=
  fun args σ =>
    match arg 0 args with
    | VNum n => (Normal (VNum (n + 1)), σ)
    | _ => (Abrupt (TypeError "not a number"), σ)
    end.

(** [(state) => state.p + state.c], likewise. *)
Definition sum_p_c : jsfun :=
  fun args σ =>
    match get σ (arg 0 args) "p", get σ (arg 0 args) "c" with
    | VNum a, VNum b => (Normal (VNum (a + b)), σ)
    | _, _ => (Abrupt (TypeError "not a number"), σ)
    end.

(** [(s, env) => ({ child: env })] *)
Definition child_of_env : jsfun :=
  fun args σ =>
    let '(o, σ') := alloc σ {[ "child" := arg 1 args ]} in
    (Normal o, σ').

(** An instance of [class BadChild extends HyperProc { async run(state) { return 123; } }]. *)
Definition BadChild : HyperProc.chain_arg :=
  HyperProc.IsInstance (fun _ σ => (Normal (VNum 123), σ, [])).

(** The properties of the object a run resolved with. *)
Definition resolved (r : completion value * store * list HyperProc.event)
  : option (gmap string value) :=
  match r with
  | (Normal (VObject _ l), σ, _) => Some (props σ l)
  | _ => None
  end.

(** The value a run rejected with. *)
Definition rejected (r : completion value * store * list HyperProc.event) : option value :=
  match r with
  | (Abrupt e, _, _) => Some e
  | _ => None
  end.

(** [c.chain(x)] for a pipeline under construction. *)
Definition then_chain (c : completion HyperProc.hyperProc) (x : HyperProc.hyperProc)
  : completion HyperProc.hyperProc :=
  match c with
  | Normal this => HyperProc.chain this (HyperProc.IsInstance (HyperProc.run x))
  | Abrupt e => Abrupt e
  end.

(** [await c.run(state)] for a pipeline under construction. *)
Definition then_run (c : completion HyperProc.hyperProc) (state : value) (σ : store)
  : completion value * store * list HyperProc.event :=
  match c with
  | Normal this => HyperProc.run this state σ
  | Abrupt e => (Abrupt e, σ, [])
  end.


(** [new HyperSubProc(env).augment("x", () => 1).applyTo(() => { throw e; })] *)
Definition bubbling_child (env e : value) : HyperProc.hyperProc :=
  HyperProc.applyTo
    (HyperProc.augment (HyperSubProc.new env) "x" (returns (VNum 1)))
    (throws e).

(** [new HyperProc(env).onError((err) => { throw err; })] with [child]
    queued by [chain]. *)
Definition bubbling_parent (env : value) (child : HyperProc.hyperProc)
  : HyperProc.hyperProc :=
  HyperProc.onError (HyperProc.push (HyperProc.new env) (chain_record child))
    HyperSubProc.bubble.

(** ** Definitions for further properties *)






(** The record queued by [transform("ok", (v) => v + 1)]. *)
Definition bump_record : HyperProc.oprec :=
  {| HyperProc.id := Some "ok"; HyperProc.fn := HyperProc.Fn add1;
     HyperProc.op := HyperProc.TRANSFORM |}.


(** * StateGuard *)

Section StateGuard.

Import HyperProc.


Lemma isState_total v : ∃ b, isState v = Normal b.
Proof.
  unfold isState.
  destruct v; simpl; eauto.
  destruct (is_array c); simpl; eauto.
Qed.



End StateGuard.

(** * PipelineError serialisation *)

Section Serialization.

Import HyperProcError.

(** C8.  For the error built by the constructor from any message and
    options, [toJSON()] is the literal with exactly the fields [name],
    [message], [op], [id], [cause], in which [op] is ["UNDEFINED"] when
    no [op] was supplied, [cause] is the literal with exactly [name] and
    [message] of the cause when the error has one and [undefined]
    otherwise, and which is the same whatever [state] was attached. *)
Theorem toJSON_shape (σ : store) (message : string) (o : opts) :
  toJSON σ (new message o) =
    LObject
      [ ("name", LValue (VStr "HyperProcError"));
        ("message", LValue (VStr message));
        ("op", LValue (VStr (if is_undefined (op o) then "UNDEFINED"
                             else err_op (new message o))));
        ("id", LValue (id o));
        ("cause",
          if truthy (cause o)
          then LObject [ ("name", LValue (get σ (cause o) "name"));
                         ("message", LValue (get σ (cause o) "message")) ]
          else LValue VUndefined) ]
  ∧ field_names (toJSON σ (new message o)) = ["name"; "message"; "op"; "id"; "cause"]
  ∧ (∀ s, toJSON σ (new message {| op := op o; id := id o; state := s; cause := cause o |})
          = toJSON σ (new message o)).
Proof.
  split; [|split].
  - unfold toJSON, new; simpl.
    destruct (truthy (cause o)) eqn:Hc; rewrite ?Hc;
      destruct (op o); reflexivity.
  - reflexivity.
  - intros s. reflexivity.
Qed.

End Serialization.

(** * Store lemmas *)

Section StoreLemmas.

Lemma props_Some σ l ps : heap σ !! l = Some ps → props σ l = ps.
Proof. unfold props. intros ->. reflexivity. Qed.




End StoreLemmas.

(** * Interpreter lemmas *)

Section Interpreter.

Import HyperProc.


Lemma isState_defined v : isState v = Normal true → is_undefined v = false.
Proof. destruct v; simpl; done. Qed.

Lemma check_state_ok v m : isState v = Normal true → check_state v m = Normal tt.
Proof. unfold check_state. intros ->. reflexivity. Qed.

Lemma check_state_fail v m :
  isState v = Normal false → check_state v m = Abrupt (TypeError m).
Proof. unfold check_state. intros ->. reflexivity. Qed.

Lemma check_state_cases v m :
  (isState v = Normal true ∧ check_state v m = Normal tt) ∨
  (isState v = Normal false ∧ check_state v m = Abrupt (TypeError m)).
Proof.
  destruct (isState_total v) as [[] Hb]; [left|right]; split; try done.
  - by apply check_state_ok.
  - by apply check_state_fail.
Qed.


Lemma hasOwnProperty_Some σ c l k x :
  props σ l !! k = Some x → hasOwnProperty σ (VObject c l) k = true.
Proof. simpl. intros ->. reflexivity. Qed.


Lemma step_applyTo_return env i f state σ v σ1 :
  f [state; env] σ = (Normal v, σ1) →
  step env {| id := i; fn := Fn f; op := APPLY_TO |} state σ =
    match check_state v "HyperProc.applyTo must return an OBJECT as state" with
    | Abrupt e => Raise e σ1 [EvCall i APPLY_TO [state; env]]
    | Normal _ => Continue v σ1 [EvCall i APPLY_TO [state; env]]
    end.
Proof. unfold step, invoke; simpl. intros ->. reflexivity. Qed.


Lemma loop_nil env state σ tr : loop env [] state σ tr = Completed state σ tr.
Proof. reflexivity. Qed.

Lemma loop_cons_continue env r rest state σ tr state' σ' tr' :
  step env r state σ = Continue state' σ' tr' →
  loop env (r :: rest) state σ tr = loop env rest state' σ' (tr ++ tr').
Proof. simpl. intros ->. reflexivity. Qed.

Lemma loop_cons_raise env r rest state σ tr err σ' tr' :
  step env r state σ = Raise err σ' tr' →
  loop env (r :: rest) state σ tr = Raised err (id r) (op r) state σ' (tr ++ tr').
Proof. simpl. intros ->. reflexivity. Qed.

Lemma loop_app env pre post state σ tr :
  loop env (pre ++ post) state σ tr =
    match loop env pre state σ tr with
    | Completed state' σ' tr' => loop env post state' σ' tr'
    | Raised err i o state' σ' tr' => Raised err i o state' σ' tr'
    end.
Proof.
  revert state σ tr. induction pre as [|r pre IH]; intros state σ tr; simpl.
  - reflexivity.
  - destruct (step env r state σ); [apply IH | reflexivity].
Qed.

(** The state variable always satisfies the state predicate. *)
Lemma step_state_valid env r state σ state' σ' tr :
  isState state = Normal true →
  step env r state σ = Continue state' σ' tr →
  isState state' = Normal true.
Proof.
  intros Hs. unfold step.
  destruct (op r).
  - destruct (invoke r [state; env] σ) as [[[v|e] σ1] tr1]; [|discriminate].
    destruct (check_state_cases v "HyperProc.applyTo must return an OBJECT as state")
      as [[Hv ->]|[Hv ->]]; [|discriminate].
    by intros [= <- _ _].
  - destruct (negb _); [discriminate|].
    destruct (invoke r _ σ) as [[[v|e] σ1] tr1]; [|discriminate].
    by intros [= <- _ _].
  - destruct (hasOwnProperty _ _ _); [discriminate|].
    destruct (invoke r _ σ) as [[[v|e] σ1] tr1]; [|discriminate].
    by intros [= <- _ _].
  - destruct (invoke_run r state σ) as [[[v|e] σ1] tr1]; [|discriminate].
    destruct (check_state_cases v "HyperProc.chain must return an OBJECT as state")
      as [[Hv ->]|[Hv ->]]; [|discriminate].
    by intros [= <- _ _].
  - destruct (invoke r _ σ) as [[[v|e] σ1] tr1]; [|discriminate].
    by intros [= <- _ _].
  - discriminate.
Qed.

Lemma loop_state_valid env ops state σ tr :
  isState state = Normal true →
  match loop env ops state σ tr with
  | Completed state' _ _ => isState state' = Normal true
  | Raised _ _ _ state' _ _ => isState state' = Normal true
  end.
Proof.
  revert state σ tr. induction ops as [|r ops IH]; intros state σ tr Hs; simpl; [done|].
  destruct (step env r state σ) eqn:Hst; [|done].
  apply IH. eapply step_state_valid; eauto.
Qed.

Lemma loop_completed_valid env ops state σ state' σ' tr :
  isState state = Normal true →
  loop env ops state σ [] = Completed state' σ' tr →
  isState state' = Normal true.
Proof.
  intros Hs Hl. pose proof (loop_state_valid env ops state σ [] Hs) as H.
  by rewrite Hl in H.
Qed.


(** The loop calls record functions and nested runs, never the handler. *)
Lemma invoke_handler_calls r args σ :
  handler_calls (invoke r args σ).2 = [].
Proof. unfold invoke. destruct (fn r); [destruct (f args σ)|]; reflexivity. Qed.

Lemma invoke_run_handler_calls r state σ :
  handler_calls (invoke_run r state σ).2 = [].
Proof.
  unfold invoke_run. destruct (fn r) as [f|rn]; [reflexivity|].
  destruct (rn state σ) as [[? ?] ?]. reflexivity.
Qed.

Lemma step_handler_calls env r state σ :
  handler_calls (step_trace (step env r state σ)) = [].
Proof.
  unfold step. destruct (op r).
  - pose proof (invoke_handler_calls r [state; env] σ) as H.
    destruct (invoke r [state; env] σ) as [[[v|e] σ1] tr1]; simpl in *; [|done].
    destruct (check_state _ _); done.
  - destruct (negb _); [done|].
    pose proof (invoke_handler_calls r [get σ state (key (id r)); state; env] σ) as H.
    destruct (invoke r _ σ) as [[[v|e] σ1] tr1]; done.
  - destruct (hasOwnProperty _ _ _); [done|].
    pose proof (invoke_handler_calls r [state; env] σ) as H.
    destruct (invoke r _ σ) as [[[v|e] σ1] tr1]; done.
  - pose proof (invoke_run_handler_calls r state σ) as H.
    destruct (invoke_run r state σ) as [[[v|e] σ1] tr1]; simpl in *; [|done].
    destruct (check_state _ _); done.
  - pose proof (invoke_handler_calls r [state; env] σ) as H.
    destruct (invoke r _ σ) as [[[v|e] σ1] tr1]; done.
  - done.
Qed.

Lemma handler_calls_app tr1 tr2 :
  handler_calls (tr1 ++ tr2) = handler_calls tr1 ++ handler_calls tr2.
Proof. apply omap_app. Qed.

Lemma loop_handler_calls env ops state σ tr :
  handler_calls (loop_trace (loop env ops state σ tr)) = handler_calls tr.
Proof.
  revert state σ tr. induction ops as [|r ops IH]; intros state σ tr; simpl; [done|].
  pose proof (step_handler_calls env r state σ) as H.
  destruct (step env r state σ); simpl in *.
  - rewrite IH, handler_calls_app, H. apply app_nil_r.
  - rewrite handler_calls_app, H. apply app_nil_r.
Qed.


Lemma recover_return this E state σ tr result σ1 :
  _onError this [E; state; _env this] σ = (Normal result, σ1) →
  recover this E state σ tr =
    match check_state (if is_undefined result then state else result)
            "HyperProc.onError must return UNDEFINED or an OBJECT as state" with
    | Abrupt rethrow => (Abrupt rethrow, σ1, tr ++ [EvOnError [E; state; _env this]])
    | Normal _ => (Normal (if is_undefined result then state else result), σ1,
                   tr ++ [EvOnError [E; state; _env this]])
    end.
Proof. unfold recover. intros ->. reflexivity. Qed.


Lemma run_completed this state σ state' σ' tr :
  isState state = Normal true →
  loop (_env this) (_ops this) state σ [] = Completed state' σ' tr →
  run this state σ = (Normal state', σ', tr).
Proof. intros Hs Hl. unfold run. rewrite (check_state_ok _ _ Hs), Hl. reflexivity. Qed.

Lemma run_raised this state σ err i o state' σ' tr :
  isState state = Normal true →
  loop (_env this) (_ops this) state σ [] = Raised err i o state' σ' tr →
  run this state σ = recover this (normalize σ' err i o state') state' σ' tr.
Proof. intros Hs Hl. unfold run. rewrite (check_state_ok _ _ Hs), Hl. reflexivity. Qed.

End Interpreter.

(** * The default policy *)

Section DefaultPolicy.

Import HyperProc.



End DefaultPolicy.

(** * The error protocol of [run] *)

Section ErrorProtocol.

Import HyperProc.


Lemma normalize_wrap σ err i o state :
  instanceof_HyperProcError err = false →
  isState state = Normal true →
  normalize σ err i o state =
    VHyperProcError
      {| err_name := "HyperProcError";
         err_message := HyperProcError.message_of σ err;
         err_op := String_ (nullish_or (tag_value o) (VStr "UNDEFINED"));
         err_id := id_value i;
         err_state := Some state;
         err_cause := if truthy err then Some err else None |}.
Proof.
  unfold normalize. intros -> Hs. unfold HyperProcError.from, HyperProcError.new.
  cbn [HyperProcError.state HyperProcError.op HyperProcError.id HyperProcError.cause].
  rewrite (isState_defined _ Hs). reflexivity.
Qed.

Lemma recover_trace this E state σ tr :
  ∃ out σ', recover this E state σ tr =
              (out, σ', tr ++ [EvOnError [E; state; _env this]]).
Proof.
  unfold recover.
  destruct (_onError this _ σ) as [[result|rethrow] σ1]; [|eauto].
  destruct (check_state _ _); eauto.
Qed.



End ErrorProtocol.

(** * The result of the recovery handler *)

Section Recovery.

Import HyperProc.

Lemma recover_invalid_result this E state σ tr result σ1 :
  _onError this [E; state; _env this] σ = (Normal result, σ1) →
  isState (if is_undefined result then state else result) = Normal false →
  recover this E state σ tr =
    (Abrupt (TypeError onError_message), σ1, tr ++ [EvOnError [E; state; _env this]]).
Proof.
  intros Hh Hv. rewrite (recover_return _ _ _ _ _ _ _ Hh).
  rewrite (check_state_fail _ _ Hv). reflexivity.
Qed.


Lemma is_undefined_false v : v ≠ VUndefined → is_undefined v = false.
Proof. destruct v; simpl; congruence. Qed.

Lemma handler_calls_raised env ops state σ err i o s1 σ1 tr args :
  loop env ops state σ [] = Raised err i o s1 σ1 tr →
  handler_calls (tr ++ [EvOnError args]) = [args].
Proof.
  intros Hl. pose proof (loop_handler_calls env ops state σ []) as H.
  rewrite Hl in H. simpl in H. rewrite handler_calls_app, H. reflexivity.
Qed.



End Recovery.

(** * Field discipline of [transform] *)

Section Transform.

Import HyperProc.



End Transform.

(** * Shape violations *)

Section ShapeViolations.

Import HyperProc.

Lemma message_of_TypeError σ m : HyperProcError.message_of σ (TypeError m) = m.
Proof. reflexivity. Qed.

Lemma tag_op_string r :
  op r = APPLY_TO ∨ op r = CHAIN →
  String_ (nullish_or (tag_value (op r)) (VStr "UNDEFINED")) = String_ (tag_value (op r)).
Proof. intros [-> | ->]; reflexivity. Qed.

(** C1 (as amended).  An initial state that fails the state predicate
    makes [run] reject with a plain TypeError before any call is made.
    A chain argument that is not an instance makes [chain] itself throw
    a plain TypeError.  A handler result that is neither [undefined] nor
    a valid state makes [run] reject with a plain TypeError, the handler
    having been called once only.  An [applyTo] or [chain] result that
    fails the state predicate raises a plain TypeError inside the loop;
    like any error raised there it is wrapped into a pipeline error, with
    the TypeError as cause, and handed to the recovery handler, whose
    result decides how [run] settles. *)
Theorem shape_violations (this : hyperProc) (state : value) (σ : store) :
  (isState state = Normal false →
     run this state σ = (Abrupt (TypeError run_message), σ, []))
  ∧ (∀ v, chain this (NotInstance v) = Abrupt (TypeError chain_arg_message))
  ∧ (∀ err i o s1 σ1 tr result σ2,
       isState state = Normal true →
       loop (_env this) (_ops this) state σ [] = Raised err i o s1 σ1 tr →
       _onError this [normalize σ1 err i o s1; s1; _env this] σ1 = (Normal result, σ2) →
       result ≠ VUndefined →
       isState result = Normal false →
       run this state σ =
         (Abrupt (TypeError onError_message), σ2,
          tr ++ [EvOnError [normalize σ1 err i o s1; s1; _env this]])
       ∧ handler_calls (tr ++ [EvOnError [normalize σ1 err i o s1; s1; _env this]]) =
           [[normalize σ1 err i o s1; s1; _env this]])
  ∧ (∀ pre r post s1 σ1 tr1 v σ2 tr2 m,
       isState state = Normal true →
       _ops this = pre ++ r :: post →
       loop (_env this) pre state σ [] = Completed s1 σ1 tr1 →
       (op r = APPLY_TO ∧ invoke r [s1; _env this] σ1 = (Normal v, σ2, tr2)
          ∧ m = applyTo_message
        ∨ op r = CHAIN ∧ invoke_run r s1 σ1 = (Normal v, σ2, tr2)
          ∧ m = chain_message) →
       isState v = Normal false →
       step (_env this) r s1 σ1 = Raise (TypeError m) σ2 tr2
       ∧ run this state σ = recover this (wrapped_TypeError m r s1) s1 σ2 (tr1 ++ tr2)
       ∧ (run this state σ).2 =
           tr1 ++ tr2 ++ [EvOnError [wrapped_TypeError m r s1; s1; _env this]]).
Proof.
  split; [|split; [|split]].
  - intros Hs. unfold run. rewrite (check_state_fail _ _ Hs). reflexivity.
  - reflexivity.
  - intros err i o s1 σ1 tr result σ2 Hs Hl Hh Hu Hv.
    rewrite (run_raised _ _ _ _ _ _ _ _ _ Hs Hl).
    split; [|eapply handler_calls_raised; eauto].
    apply is_undefined_false in Hu.
    rewrite (recover_invalid_result _ _ _ _ _ _ _ Hh); rewrite ?Hu; done.
  - intros pre r post s1 σ1 tr1 v σ2 tr2 m Hs Hops Hpre Hcase Hv.
    assert (Hs1 : isState s1 = Normal true).
    { eapply loop_completed_valid; eauto. }
    assert (Hstep : step (_env this) r s1 σ1 = Raise (TypeError m) σ2 tr2).
    { unfold step. destruct Hcase as [(Hop & Hi & ->) | (Hop & Hi & ->)];
        rewrite Hop, Hi; unfold applyTo_message, chain_message;
        rewrite (check_state_fail _ _ Hv); reflexivity. }
    assert (Hrun : run this state σ =
              recover this (wrapped_TypeError m r s1) s1 σ2 (tr1 ++ tr2)).
    { erewrite run_raised; [|exact Hs|].
      2:{ rewrite Hops, loop_app, Hpre. by apply loop_cons_raise. }
      rewrite normalize_wrap by done.
      unfold wrapped_TypeError. rewrite message_of_TypeError, tag_op_string; [done|].
      destruct Hcase as [(Hop & _) | (Hop & _)]; auto. }
    split; [exact Hstep|]. split; [exact Hrun|].
    rewrite Hrun.
    destruct (recover_trace this (wrapped_TypeError m r s1) s1 σ2 (tr1 ++ tr2))
      as (out & σ3 & ->).
    simpl. by rewrite <- app_assoc.
Qed.

Lemma shape_violations_witness :
  isState (VNum 7) = Normal false
  ∧ run (applyTo_number env2) (VNum 7) two_objects =
      (Abrupt (TypeError run_message), two_objects, []).
Proof.
  assert (H : isState (VNum 7) = Normal false) by reflexivity.
  split; [exact H|].
  exact (proj1 (shape_violations (applyTo_number env2) (VNum 7) two_objects) H).
Defined.

(** C1, the claim as written fails: with the default handler,
    [applyTo(() => 123)] run on [{}] resolves with the state it was
    given, and the TypeError of the result check has been handed to the
    recovery handler as the cause of a pipeline error. *)
Lemma applyTo_violation_recovered :
  _ops (applyTo_number env2) = [number_record]
  ∧ isState state1 = Normal true
  ∧ invoke number_record [state1; env2] two_objects =
      (Normal (VNum 123), two_objects, [applyTo_call])
  ∧ isState (VNum 123) = Normal false
  ∧ run (applyTo_number env2) state1 two_objects =
      (Normal state1,
       console_error (wrapped_TypeError applyTo_message number_record state1) two_objects,
       [applyTo_call;
        EvOnError [wrapped_TypeError applyTo_message number_record state1; state1; env2]])
  ∧ (∀ e, (run (applyTo_number env2) state1 two_objects).1.1 ≠ Abrupt e)
  ∧ handler_calls (run (applyTo_number env2) state1 two_objects).2 =
      [[wrapped_TypeError applyTo_message number_record state1; state1; env2]].
Proof.
  split; [reflexivity|]. split; [reflexivity|]. split; [reflexivity|].
  split; [reflexivity|]. split; [reflexivity|]. split; [discriminate | reflexivity].
Qed.

End ShapeViolations.

(** * Chained engines *)

Section Chaining.

Import HyperProc.















End Chaining.

(** * Writes in place *)

Section InPlace.

Import HyperProc.







End InPlace.

(** * The test suite of the repository, on the model *)

Section TestSuite.

Import HyperProc.

(** [isState] on the kinds of value the README and the tests name. *)
Example test_isState :
  isState state1 = Normal true
  ∧ isState (VObject {| is_array := false; prototype := NullPrototype |} 1%positive)
      = Normal true
  ∧ isState VNull = Normal false
  ∧ isState VUndefined = Normal false
  ∧ isState array1 = Normal false
  ∧ isState (VObject {| is_array := false; prototype := ClassPrototype "Map" |} 1%positive)
      = Normal false
  ∧ isState (VNum 123) = Normal false
  ∧ isState (VFunction "f" "() => 1") = Normal false
  ∧ isState boom = Normal false.
Proof. repeat split. Qed.

(** "run() rejects non-object state" *)
Example test_run_rejects_null :
  rejected (run (HyperProc.new env2) VNull two_objects) = Some (TypeError run_message).
Proof. reflexivity. Qed.

Example test_run_rejects_array :
  rejected (run (HyperProc.new env2) array1 two_objects) = Some (TypeError run_message).
Proof. reflexivity. Qed.

(** "applyTo replaces state when fn returns new object" *)
Example test_applyTo_replaces :
  resolved (run (applyTo (HyperProc.new env2) (spread 0 "a" (VNum 1))) state1 two_objects)
    = Some {[ "a" := VNum 1 ]}.
Proof. vm_compute. reflexivity. Qed.

(** "applyTo returning non-object rejects", with a bubbling handler *)
Example test_applyTo_non_object :
  rejected (run (onError (applyTo_number env2) HyperSubProc.bubble) state1 two_objects)
    = Some (wrapped_TypeError applyTo_message number_record state1).
Proof. reflexivity. Qed.

(** "transform updates property with (value, state, env)" *)
Example test_transform_updates :
  resolved (run (transform (augment (HyperProc.new env2) "a" (returns (VNum 1))) "a" add1)
              state1 two_objects)
    = Some {[ "a" := VNum 2 ]}.
Proof. vm_compute. reflexivity. Qed.

(** "augment throws if key exists (strict)" *)
Example test_augment_existing :
  get two_objects
    (default VUndefined
       (rejected (run (augment (augment (HyperSubProc.new env2) "b" (returns (VNum 1)))
                         "b" (returns (VNum 2))) state1 two_objects)))
    "message"
  = VStr ("HyperProc.augment property " +:+ dquote +:+ "b" +:+ dquote +:+ " already exists").
Proof. vm_compute. reflexivity. Qed.

(** "noop/log do not change state" *)
Example test_noop_log :
  resolved (run (log (noop (augment (HyperProc.new env2) "x" (returns (VNum 1)))
                        (returns (VNum 123)))
                   (inr (VStr "hello")))
              state1 two_objects)
    = Some {[ "x" := VNum 1 ]}.
Proof. vm_compute. reflexivity. Qed.

(** "unknown operation bubbles HyperProcError with op/id" *)
Example test_unknown_operation :
  rejected (run (push (HyperSubProc.new env2)
                   {| id := Some "z"; fn := Fn (returns VUndefined);
                      op := OtherTag (VSymbol "BOGUS") |})
              state1 two_objects)
    = Some (VHyperProcError
              {| err_name := "HyperProcError";
                 err_message := "Unknown Operation: Symbol(BOGUS)";
                 err_op := "Symbol(BOGUS)";
                 err_id := VStr "z";
                 err_state := Some state1;
                 err_cause := None |}).
Proof. reflexivity. Qed.

(** "onError can recover by returning patched state" *)
Example test_onError_patches :
  resolved (run (onError (applyTo (augment (HyperProc.new env2) "ok" (returns (VNum 1)))
                            (throws boom))
                   patch_handler)
              state1 two_objects)
    = Some {[ "ok" := VNum 1; "recovered" := VBool true ]}.
Proof. vm_compute. reflexivity. Qed.

(** "onError returning undefined leaves state unchanged" *)
Example test_onError_undefined :
  resolved (run (onError (applyTo (augment (HyperProc.new env2) "v" (returns (VNum 7)))
                            (throws boom))
                   (returns VUndefined))
              state1 two_objects)
    = Some {[ "v" := VNum 7 ]}.
Proof. vm_compute. reflexivity. Qed.

(** "errors are normalized to HyperProcError with cause" *)
Example test_normalized_with_cause :
  handler_calls (run (applyTo (HyperProc.new env2) (throws (TypeError "bad")))
                   state1 two_objects).2
    = [[VHyperProcError
          {| err_name := "HyperProcError";
             err_message := "bad";
             err_op := "Symbol(APPLY_TO)";
             err_id := VUndefined;
             err_state := Some state1;
             err_cause := Some (TypeError "bad") |};
        state1; env2]].
Proof. reflexivity. Qed.

(** "chain() requires HyperProc instance" *)
Example test_chain_requires_instance :
  chain (HyperProc.new env2) (NotInstance state1) = Abrupt (TypeError chain_arg_message).
Proof. reflexivity. Qed.

(** "chaining with base HyperProc keeps child default swallow" *)
Example test_chain_child_swallows :
  resolved (then_run
              (then_chain (Normal (HyperProc.new env2))
                 (applyTo (augment (HyperProc.new env2) "fromChild" (returns (VNum 1)))
                    (throws boom)))
              state1 two_objects)
    = Some {[ "fromChild" := VNum 1 ]}.
Proof. vm_compute. reflexivity. Qed.

(** "chaining HyperSubProc bubbles to parent and parent can recover" *)
Example test_chain_parent_recovers :
  resolved (then_run
              (then_chain (Normal (onError (HyperProc.new env2)
                                     (spread 1 "parentRecovered" (VBool true))))
                 (applyTo (augment (HyperSubProc.new env2) "fromChild" (returns (VNum 1)))
                    (throws boom)))
              state1 two_objects)
    = Some {[ "fromChild" := VNum 1; "parentRecovered" := VBool true ]}.
Proof. vm_compute. reflexivity. Qed.

(** "child HyperSubProc bubble propagates if parent also throws" *)
Example test_chain_bubbles :
  get two_objects
    (default VUndefined
       (rejected (run (bubbling_parent env2 (bubbling_child env2 boom)) state1 two_objects)))
    "message"
  = VStr "boom".
Proof. vm_compute. reflexivity. Qed.

(** "CHAIN uses child's env/handler" *)
Example test_chain_child_env :
  resolved (then_run
              (then_chain (Normal (HyperProc.new (VNum 1)))
                 (applyTo (HyperSubProc.new (VNum 10)) child_of_env))
              state1 two_objects)
    = Some {[ "child" := VNum 10 ]}.
Proof. vm_compute. reflexivity. Qed.

(** "parent continues after CHAIN completes" *)
Example test_chain_continues :
  resolved (then_run
              (match then_chain (Normal (augment (HyperProc.new env2) "p" (returns (VNum 1))))
                       (augment (HyperProc.new env2) "c" (returns (VNum 1))) with
               | Normal this => Normal (augment this "q" sum_p_c)
               | Abrupt e => Abrupt e
               end)
              state1 two_objects)
    = Some {[ "p" := VNum 1; "c" := VNum 1; "q" := VNum 2 ]}.
Proof. vm_compute. reflexivity. Qed.

(** "CHAIN returning non-object rejects", with a bubbling parent *)
Example test_chain_non_object :
  get two_objects
    (default VUndefined
       (rejected (then_run (chain (HyperSubProc.new env2) BadChild) state1 two_objects)))
    "message"
  = VStr chain_message.
Proof. vm_compute. reflexivity. Qed.

(** "HyperProcError.toJSON has stable shape" *)
Example test_toJSON :
  HyperProcError.toJSON two_objects (HyperProcError.new "msg" HyperProcError.no_opts) =
    LObject [ ("name", LValue (VStr "HyperProcError"));
              ("message", LValue (VStr "msg"));
              ("op", LValue (VStr "UNDEFINED"));
              ("id", LValue VUndefined);
              ("cause", LValue VUndefined) ].
Proof. reflexivity. Qed.

End TestSuite.

(** * Field discipline of [augment], and unknown tags *)

Section MoreRecords.

Import HyperProc.









End MoreRecords.

(** * How records compose *)

Section Composition.

Import HyperProc.





End Composition.

(** * What [run] settles with *)

Section Settlement.

Import HyperProc.









(** X9.  When the loop runs off the end of the queue, the run resolves
    with the loop's state and store and the recovery handler is not called:
    replacing the handler with [onError] changes nothing in such a run. *)
Theorem success_ignores_handler (this : hyperProc) (h : jsfun) (state : value)
    (σ : store) (s' : value) (σ' : store) (tr : list event) :
  isState state = Normal true →
  loop (_env this) (_ops this) state σ [] = Completed s' σ' tr →
  run this state σ = (Normal s', σ', tr)
  ∧ run (onError this h) state σ = (Normal s', σ', tr)
  ∧ handler_calls tr = [].
Proof.
  intros Hs Hl. split; [by apply run_completed|]. split.
  - by apply run_completed.
  - pose proof (loop_handler_calls (_env this) (_ops this) state σ []) as H.
    by rewrite Hl in H.
Qed.

Lemma success_ignores_handler_witness :
  isState state1 = Normal true
  ∧ loop env2 [ok_record; bump_record] state1 two_objects [] =
      Completed state1 (set (set two_objects state1 "ok" (VNum 1)) state1 "ok" (VNum 2))
        [ok_call; EvCall (Some "ok") TRANSFORM [VNum 1; state1; env2]]
  ∧ run (onError (with_ops (HyperProc.new env2) [ok_record; bump_record]) (throws boom))
      state1 two_objects =
      (Normal state1, set (set two_objects state1 "ok" (VNum 1)) state1 "ok" (VNum 2),
       [ok_call; EvCall (Some "ok") TRANSFORM [VNum 1; state1; env2]]).
Proof.
  assert (H1 : isState state1 = Normal true) by reflexivity.
  assert (H2 : loop (_env (with_ops (HyperProc.new env2) [ok_record; bump_record]))
                 (_ops (with_ops (HyperProc.new env2) [ok_record; bump_record]))
                 state1 two_objects [] =
               Completed state1
                 (set (set two_objects state1 "ok" (VNum 1)) state1 "ok" (VNum 2))
                 [ok_call; EvCall (Some "ok") TRANSFORM [VNum 1; state1; env2]])
    by reflexivity.
  split; [exact H1|]. split; [exact H2|].
  exact (proj1 (proj2 (success_ignores_handler
                  (with_ops (HyperProc.new env2) [ok_record; bump_record]) (throws boom)
                  state1 two_objects _ _ _ H1 H2))).
Defined.

End Settlement.

(** * More on chained engines *)

Section MoreChaining.

Import HyperProc.








End MoreChaining.

(** * Order of calls, and the builders [applyTo] and [log] *)

Section Builders.

Import HyperProc.






(** X14.  [applyTo(f)] appended to a pipeline whose loop completes: [f] is
    called with the state and store the earlier records produced, and when
    it returns a valid state the run resolves with that value, which
    replaces the state variable, in the store [f] left. *)
Theorem applyTo_replaces_state (this : hyperProc) (f : jsfun) (state : value) (σ : store)
    (s1 : value) (σ1 : store) (tr1 : list event) (v : value) (σ2 : store) :
  isState state = Normal true →
  loop (_env this) (_ops this) state σ [] = Completed s1 σ1 tr1 →
  f [s1; _env this] σ1 = (Normal v, σ2) →
  isState v = Normal true →
  run (applyTo this f) state σ =
    (Normal v, σ2, tr1 ++ [EvCall None APPLY_TO [s1; _env this]])
  ∧ _onError (applyTo this f) = _onError this
  ∧ _env (applyTo this f) = _env this.
Proof.
  intros Hs Hl Hf Hv. split; [|done].
  apply run_completed; [exact Hs|].
  unfold applyTo, push; cbn [_ops _env].
  rewrite loop_app, Hl.
  erewrite loop_cons_continue; [reflexivity|].
  rewrite (step_applyTo_return _ _ _ _ _ _ _ Hf), (check_state_ok _ _ Hv). reflexivity.
Qed.

Lemma applyTo_replaces_state_witness :
  isState state1 = Normal true
  ∧ loop env2 [ok_record] state1 two_objects [] =
      Completed state1 (set two_objects state1 "ok" (VNum 1)) [ok_call]
  ∧ isState (VObject plain 3%positive) = Normal true
  ∧ run (applyTo (with_ops (HyperProc.new env2) [ok_record]) (spread 0 "a" (VNum 7)))
      state1 two_objects =
      (Normal (VObject plain 3%positive),
       (spread 0 "a" (VNum 7) [state1; env2] (set two_objects state1 "ok" (VNum 1))).2,
       [ok_call] ++ [applyTo_call]).
Proof.
  assert (H1 : isState state1 = Normal true) by reflexivity.
  assert (H2 : loop (_env (with_ops (HyperProc.new env2) [ok_record]))
                 (_ops (with_ops (HyperProc.new env2) [ok_record])) state1 two_objects [] =
               Completed state1 (set two_objects state1 "ok" (VNum 1)) [ok_call])
    by reflexivity.
  assert (H3 : spread 0 "a" (VNum 7)
                 [state1; _env (with_ops (HyperProc.new env2) [ok_record])]
                 (set two_objects state1 "ok" (VNum 1)) =
               (Normal (VObject plain 3%positive),
                (spread 0 "a" (VNum 7) [state1; env2]
                   (set two_objects state1 "ok" (VNum 1))).2))
    by (vm_compute; reflexivity).
  assert (H4 : isState (VObject plain 3%positive) = Normal true) by reflexivity.
  split; [exact H1|]. split; [exact H2|]. split; [exact H4|].
  exact (proj1 (applyTo_replaces_state (with_ops (HyperProc.new env2) [ok_record])
                  (spread 0 "a" (VNum 7)) state1 two_objects _ _ _ _ _ H1 H2 H3 H4)).
Defined.



End Builders.

(** * Wrapping a thrown value *)

Section Wrapping.

Import HyperProcError.



End Wrapping.

(** * Running a record again on the same object *)

Section Rerun.

Import HyperProc.



End Rerun.
